(** * CoachAI: the adaptive processing pipeline

    A shallow embedding of the tier router, the two analysis strategies,
    the feedback generator, the progress tracker and the device capability
    cache of the CoachAI application, with the properties its specification
    states about them.

    Conventions of the embedding.
    - A TypeScript [number] is an exact rational ([Q]); [NaN], the
      infinities and binary rounding are outside the model.  [Math.round]
      rounds half-way cases upwards, as in JavaScript.
    - [console.log], [console.warn] and [console.error] have no effect on
      any value a caller can observe and are left out.
    - An [async] function that may reject is a function into [Completion];
      code that reads the clock or calls a caller-supplied function threads
      an explicit world state.
    - A JavaScript [Map] is a [gmap]; the one-row capability table is an
      [option] of its row. *)

From Stdlib Require Import ZArith QArith Qround Qabs Qminmax Lqa Lia.
From Stdlib Require Import List String Sorted Permutation.
From stdpp Require Import base gmap list.
Import ListNotations.

Set Default Proof Using "Type".

(* ================================================================== *)
(** ** JavaScript values shared by all modules *)

(** The result of running a function body: it returns or it throws. *)
Inductive Completion (X R : Type) : Type :=
| Returned (r : R)
| Threw (x : X).
Arguments Returned {X R} r.
Arguments Threw {X R} x.

(** Sequencing: the rest of a body runs only if the call returned. *)
Definition bind {X A B} (c : Completion X A) (k : A -> Completion X B)
    : Completion X B :=
  match c with
  | Returned a => k a
  | Threw x => Threw x
  end.

Notation "'let*' a ':=' c 'in' k" := (bind c (fun a => k))
  (at level 10, a name, c at level 100, k at level 200).

Module JS.
Open Scope Q_scope.

  (** [Math.round]: the nearest integer, ties towards plus infinity. *)
Definition Math_round (x : Q) : Q := inject_Z (Qfloor (x + (1 # 2))).
Definition Math_floor (x : Q) : Q := inject_Z (Qfloor x).
Definition Math_max (x y : Q) : Q := Qmax x y.
Definition Math_min (x y : Q) : Q := Qmin x y.
Definition Math_abs (x : Q) : Q := Qabs x.

  (** [a < b] and [a > b] on numbers, as booleans. *)
Definition lt (a b : Q) : bool := if Qlt_le_dec a b then true else false.
Definition gt (a b : Q) : bool := lt b a.
Definition ge (a b : Q) : bool := negb (lt a b).

  (** [xs.reduce((sum, x) => sum + x, 0)]. *)
Definition sum (xs : list Q) : Q := fold_left Qplus xs 0.

  (** [xs.slice(i)] and [xs.slice(i, j)] for in-range, non-negative
      indices. *)
Definition slice_from {X} (i : nat) (xs : list X) : list X := drop i xs.
Definition slice {X} (i j : nat) (xs : list X) : list X :=
    take (j - i) (drop i xs).
End JS.

(* ================================================================== *)
(** ** types/models.ts *)

Module Models.

Inductive FormScore := grade_A | grade_B | grade_C | grade_D | grade_F.
Inductive FormIssueType := elbow_flare | wrist_angle | stance | follow_through.
Inductive FormIssueSeverity := minor | moderate | major.
Inductive DeviceTier := low | mid | high.
Inductive AnalysisTier := basic | lightweight_ml | full_ml | cloud.

Record FormIssue := {
  type : FormIssueType;
  severity : FormIssueSeverity;
  description : string;
  recommendedDrills : list string;
}.

Record BiomechanicalMetrics := {
  elbowAlignment : Q;
  wristAngle : Q;
  shoulderSquare : Q;
  followThrough : Q;
}.

Record FormAnalysisResult := {
  overallScore : FormScore;
  detectedIssues : list FormIssue;
  biomechanicalMetrics : BiomechanicalMetrics;
}.

Record PoseLandmark := {
  x : Q;
  y : Q;
  z : Q;
  visibility : Q;
}.

Record DeviceCapabilities := {
  tier : DeviceTier;
  availableRAM : Z;
  cpuCores : Z;
  hasGPU : bool;
  mlFrameworkSupported : bool;
  benchmarkScore : Z;
}.

Record UserConsent := {
  cloudProcessing : bool;
  dataSharing : bool;
}.

Record ProcessingConfig := {
  selectedTier : AnalysisTier;
  deviceCapabilities : DeviceCapabilities;
  hasConnectivity : bool;
  userConsent : UserConsent;
}.

Definition FormIssueType_eqb (a b : FormIssueType) : bool :=
  match a, b with
  | elbow_flare, elbow_flare | wrist_angle, wrist_angle
  | stance, stance | follow_through, follow_through => true
  | _, _ => false
  end.

Definition AnalysisTier_eqb (a b : AnalysisTier) : bool :=
  match a, b with
  | basic, basic | lightweight_ml, lightweight_ml
  | full_ml, full_ml | cloud, cloud => true
  | _, _ => false
  end.

Definition DeviceTier_eqb (a b : DeviceTier) : bool :=
  match a, b with
  | low, low | mid, mid | high, high => true
  | _, _ => false
  end.

End Models.
Import Models.

(* ================================================================== *)
(** ** utils/AdaptiveProcessingRouter.ts *)

Module Router.

Inductive ConnectionType := wifi | cellular | none.

Definition ConnectionType_eqb (a b : ConnectionType) : bool :=
    match a, b with
    | wifi, wifi | cellular, cellular | none, none => true
    | _, _ => false
    end.

Record ConnectivityStatus := {
    isConnected : bool;
    connectionType : ConnectionType;
    isMetered : bool;
  }.

Record ProcessingResult (T : Type) := {
    data : T;
    tier : AnalysisTier;
    processingTime : Z;
    fallbackUsed : bool;
  }.
Arguments data {T} _.
Arguments tier {T} _.
Arguments processingTime {T} _.
Arguments fallbackUsed {T} _.

  (** [selectProcessingTier]: four rules, tried from the top. *)
Definition selectProcessingTier (capabilities : DeviceCapabilities)
      (connectivity : ConnectivityStatus) (userConsent : UserConsent)
      : AnalysisTier :=
    if isConnected connectivity
       && cloudProcessing userConsent
       && ConnectionType_eqb (connectionType connectivity) wifi
       && negb (isMetered connectivity)
    then cloud
    else if DeviceTier_eqb (Models.tier capabilities) high
            && mlFrameworkSupported capabilities
    then full_ml
    else if DeviceTier_eqb (Models.tier capabilities) mid
            && mlFrameworkSupported capabilities
    then lightweight_ml
    else basic.

  (** [getFallbackTier]: the [fallbackChain] record, indexed by tier;
      [null] is [None]. *)
Definition getFallbackTier (currentTier : AnalysisTier)
      : option AnalysisTier :=
    match currentTier with
    | cloud => Some full_ml
    | full_ml => Some lightweight_ml
    | lightweight_ml => Some basic
    | basic => None
    end.

Definition validateProcessingTier (t : AnalysisTier)
      (config : ProcessingConfig) : bool :=
    match t with
    | cloud => hasConnectivity config && cloudProcessing (userConsent config)
    | full_ml | lightweight_ml =>
        mlFrameworkSupported (deviceCapabilities config)
    | basic => true
    end.

Definition getRecommendedTier (config : ProcessingConfig) : AnalysisTier :=
    let connectivity :=
      {| isConnected := hasConnectivity config;
         connectionType := if hasConnectivity config then wifi else none;
         isMetered := false |} in
    selectProcessingTier (deviceCapabilities config) connectivity
      (userConsent config).

  (** What [routeVideoAnalysis] can throw: the value a strategy call
      rejected with, escaping unchanged, or the
      [new Error(`Video analysis failed: ${error}`)] built from [error]. *)
Inductive RouteError (E : Type) : Type :=
  | StrategyError (e : E)
  | VideoAnalysisFailed (error : E).
Arguments StrategyError {E} e.
Arguments VideoAnalysisFailed {E} error.

  (** The strategy failure a thrown value was made from. *)
Definition failure_of {E} (x : RouteError E) : E :=
    match x with
    | StrategyError e => e
    | VideoAnalysisFailed e => e
    end.

Section Route.
    (** [T]: the strategy's data; [E]: the values it rejects with; [W]:
        everything outside the router that a call may read or change. *)
Context {T E W : Type}.
    (** [Date.now()]. *)
Variable Date_now : W -> Z * W.
    (** The caller's [analysisFunction(videoPath, tier)]. *)
Variable analysisFunction : string -> AnalysisTier -> W -> (E + T) * W.

    (** The tier of the first attempt, and whether the validation step
        already counted as a fallback. *)
Definition initialTier (config : ProcessingConfig) : AnalysisTier * bool :=
      if negb (validateProcessingTier (selectedTier config) config)
      then (getRecommendedTier config, true)
      else (selectedTier config, false).

Definition routeVideoAnalysis (videoPath : string)
        (config : ProcessingConfig) (w0 : W)
        : Completion (RouteError E) (ProcessingResult T) * W :=
      let '(startTime, w1) := Date_now w0 in
      let '(currentTier, fallbackUsed0) := initialTier config in
      match analysisFunction videoPath currentTier w1 with
      | (inr d, w2) =>
          let '(now, w3) := Date_now w2 in
          (Returned {| data := d; tier := currentTier;
                       processingTime := now - startTime;
                       fallbackUsed := fallbackUsed0 |}, w3)
      | (inl error, w2) =>
          match getFallbackTier currentTier with
          | Some fallbackTier =>
              match analysisFunction videoPath fallbackTier w2 with
              | (inr d, w3) =>
                  let '(now, w4) := Date_now w3 in
                  (Returned {| data := d; tier := fallbackTier;
                               processingTime := now - startTime;
                               fallbackUsed := true |}, w4)
              | (inl fallbackError, w3) =>
                  if negb (AnalysisTier_eqb fallbackTier basic) then
                    match analysisFunction videoPath basic w3 with
                    | (inr d, w4) =>
                        let '(now, w5) := Date_now w4 in
                        (Returned {| data := d; tier := basic;
                                     processingTime := now - startTime;
                                     fallbackUsed := true |}, w5)
                    | (inl lastError, w4) =>
                        (Threw (StrategyError lastError), w4)
                    end
                  else (Threw (VideoAnalysisFailed error), w3)
              end
          | None => (Threw (VideoAnalysisFailed error), w2)
          end
      end.

    (** The tiers the router gets through when no attempt succeeds: the
        first tier, its fallback, and [basic] once more unless the
        fallback was [basic] already. *)
Definition attemptChain (first : AnalysisTier) : list AnalysisTier :=
      first ::
      match getFallbackTier first with
      | Some fallbackTier =>
          fallbackTier ::
          (if negb (AnalysisTier_eqb fallbackTier basic) then [basic] else [])
      | None => []
      end.

    (** Calls the strategy on each tier in turn; [Some] of the rejection
        values, in call order, and of the final world when every call
        rejects, [None] as soon as one call resolves. *)
Fixpoint failures (videoPath : string) (tiers : list AnalysisTier) (w : W)
        : option (list E * W) :=
      match tiers with
      | [] => Some ([], w)
      | t :: rest =>
          match analysisFunction videoPath t w with
          | (inl e, w') =>
              match failures videoPath rest w' with
              | Some (es, w'') => Some (e :: es, w'')
              | None => None
              end
          | (inr _, _) => None
          end
      end.
End Route.

  (** A test double in the style of the router's callers: the clock is the
      world, every pose-based tier rejects after 40 ms and the rule-based
      tier resolves after 120 ms. *)
Definition stub_now (w : Z) : Z * Z := (w, w).
Definition stub_strategy (videoPath : string) (t : AnalysisTier) (w : Z)
      : (string + string) * Z :=
    match t with
    | basic => (inr "rule-based result"%string, (w + 120)%Z)
    | _ => (inl "pose model unavailable"%string, (w + 40)%Z)
    end.

  (** A double whose every tier rejects, each with its own message. *)
Definition failing_strategy (videoPath : string) (t : AnalysisTier) (w : Z)
      : (string + string) * Z :=
    match t with
    | basic => (inl "no motion detected"%string, (w + 120)%Z)
    | lightweight_ml => (inl "pose model unavailable"%string, (w + 40)%Z)
    | full_ml => (inl "model too large"%string, (w + 60)%Z)
    | cloud => (inl "upload refused"%string, (w + 300)%Z)
    end.

Definition stub_capabilities (t : DeviceTier) : DeviceCapabilities :=
    {| Models.tier := t; availableRAM := 4096; cpuCores := 4;
       hasGPU := true; mlFrameworkSupported := true; benchmarkScore := 60 |}.

Definition stub_config (selected : AnalysisTier) (device : DeviceTier)
      : ProcessingConfig :=
    {| selectedTier := selected;
       deviceCapabilities := stub_capabilities device;
       hasConnectivity := true;
       userConsent := {| cloudProcessing := true; dataSharing := false |} |}.

  (** The precedence table of the specification, rule by rule, for
      comparison with the code. *)
Definition cloud_rule (connectivity : ConnectivityStatus)
      (consent : UserConsent) : Prop :=
    isConnected connectivity = true /\ cloudProcessing consent = true /\
    connectionType connectivity = wifi /\ isMetered connectivity = false.

Definition full_ml_rule (capabilities : DeviceCapabilities) : Prop :=
    Models.tier capabilities = high /\ mlFrameworkSupported capabilities = true.

Definition lightweight_ml_rule (capabilities : DeviceCapabilities) : Prop :=
    Models.tier capabilities = mid /\ mlFrameworkSupported capabilities = true.

  (** [getFallbackTier] applied [n] times, stopping at [null]. *)
Fixpoint fallback_iter (n : nat) (t : AnalysisTier) : option AnalysisTier :=
    match n with
    | O => Some t
    | S k => match getFallbackTier t with
             | Some t' => fallback_iter k t'
             | None => None
             end
    end.

End Router.

(* ================================================================== *)
(** ** A stable sort by a numeric key

    [Array.prototype.sort] is stable, and for a comparator of the form
    [(a, b) => key(a) - key(b)] its result is the unique stable ordering by
    [key]; insertion from the right computes it. *)

Module StableSort.

Fixpoint insert_by {X} (key : X -> nat) (a : X) (l : list X) : list X :=
  match l with
  | [] => [a]
  | b :: rest =>
      if (key a <=? key b)%nat then a :: b :: rest
      else b :: insert_by key a rest
  end.

Definition sort_by {X} (key : X -> nat) (l : list X) : list X :=
  fold_right (insert_by key) [] l.

End StableSort.

(** [{ major: 0, moderate: 1, minor: 2 }], the [severityOrder] table of
    every comparator in the code base. *)
Definition severityOrder (s : FormIssueSeverity) : nat :=
  match s with
  | major => 0
  | moderate => 1
  | minor => 2
  end.

(** [issues.sort((a, b) => severityOrder[a.severity] -
    severityOrder[b.severity])], as a new list. *)
Definition sortBySeverity (issues : list FormIssue) : list FormIssue :=
  StableSort.sort_by (fun i => severityOrder (severity i)) issues.

(** [`${error}`] for an [Error] object with the given message. *)
Definition template_of_error (message : string) : string :=
  String.append "Error: " message.

(* ================================================================== *)
(** ** ml/PoseEstimationEngine.ts *)

Module PoseEstimationEngine.

Inductive MajorJoint :=
| NOSE
| LEFT_SHOULDER | RIGHT_SHOULDER
| LEFT_ELBOW | RIGHT_ELBOW
| LEFT_WRIST | RIGHT_WRIST
| LEFT_HIP | RIGHT_HIP
| LEFT_KNEE | RIGHT_KNEE
| LEFT_ANKLE | RIGHT_ANKLE.

(** The numeric values of the enum. *)
Definition joint_value (j : MajorJoint) : nat :=
  match j with
  | NOSE => 0
  | LEFT_SHOULDER => 5 | RIGHT_SHOULDER => 6
  | LEFT_ELBOW => 7 | RIGHT_ELBOW => 8
  | LEFT_WRIST => 9 | RIGHT_WRIST => 10
  | LEFT_HIP => 11 | RIGHT_HIP => 12
  | LEFT_KNEE => 13 | RIGHT_KNEE => 14
  | LEFT_ANKLE => 15 | RIGHT_ANKLE => 16
  end.

Definition joint_of_value (n : nat) : option MajorJoint :=
  match n with
  | 0 => Some NOSE
  | 5 => Some LEFT_SHOULDER | 6 => Some RIGHT_SHOULDER
  | 7 => Some LEFT_ELBOW | 8 => Some RIGHT_ELBOW
  | 9 => Some LEFT_WRIST | 10 => Some RIGHT_WRIST
  | 11 => Some LEFT_HIP | 12 => Some RIGHT_HIP
  | 13 => Some LEFT_KNEE | 14 => Some RIGHT_KNEE
  | 15 => Some LEFT_ANKLE | 16 => Some RIGHT_ANKLE
  | _ => None
  end.

#[global] Instance MajorJoint_eq_dec : EqDecision MajorJoint.
Proof. solve_decision. Defined.

#[global] Instance MajorJoint_countable : Countable MajorJoint.
Proof.
  apply (inj_countable joint_value joint_of_value).
  intros []; reflexivity.
Defined.

Record KeypointFrame := {
  keypoints : gmap MajorJoint PoseLandmark;
  timestamp : Q;
  confidence : Q;
}.

Record ArmKeypoints := {
  wrist : PoseLandmark;
  elbow : PoseLandmark;
  shoulder : PoseLandmark;
}.

(** [getShootingArmKeypoints]; [null] is [None]. *)
Definition getShootingArmKeypoints (keypointFrame : KeypointFrame)
    (isLeftHanded : bool) : option ArmKeypoints :=
  let wristJoint := if isLeftHanded then LEFT_WRIST else RIGHT_WRIST in
  let elbowJoint := if isLeftHanded then LEFT_ELBOW else RIGHT_ELBOW in
  let shoulderJoint :=
    if isLeftHanded then LEFT_SHOULDER else RIGHT_SHOULDER in
  match keypoints keypointFrame !! wristJoint,
        keypoints keypointFrame !! elbowJoint,
        keypoints keypointFrame !! shoulderJoint with
  | Some w, Some e, Some s =>
      Some {| wrist := w; elbow := e; shoulder := s |}
  | _, _, _ => None
  end.

End PoseEstimationEngine.

(* ================================================================== *)
(** ** ml/LightweightFormAnalyzer.ts *)

Module LightweightFormAnalyzer.
Import PoseEstimationEngine.
Local Open Scope string_scope.
Local Open Scope Q_scope.

Record ShootingPhases := {
  preparation : list KeypointFrame;
  release : list KeypointFrame;
  followThroughFrames : list KeypointFrame;
}.

Record BiomechanicalAnalysis := {
  elbowAlignment : Q;
  wristAngle : Q;
  shoulderSquare : Q;
  followThrough : Q;
  releaseHeight : Q;
  bodyBalance : Q;
}.

(** The loop that looks for the highest wrist position: [i] is the loop
    index, [heights] the readings from index [i] on. *)
Fixpoint findRelease (heights : list Q) (i releaseIdx : nat) (maxHeight : Q)
    : nat :=
  match heights with
  | [] => releaseIdx
  | h :: rest =>
      if JS.lt h maxHeight then findRelease rest (S i) i h
      else findRelease rest (S i) releaseIdx maxHeight
  end.

Definition detectShootingPhases (keypointFrames : list KeypointFrame)
    : Completion string ShootingPhases :=
  let wristHeights :=
    map (fun frame =>
           match keypoints frame !! RIGHT_WRIST with
           | Some rightWrist => y rightWrist
           | None => 0
           end) keypointFrames in
  match wristHeights with
  | [] => Threw "No keypoint frames to analyze"
  | h0 :: rest =>
      let releaseIdx := findRelease rest 1 0 h0 in
      (* Math.max(0, releaseIdx - 2): subtraction on nat stops at 0 *)
      let prepEndIdx := Nat.max 0 (releaseIdx - 2) in
      let releaseEndIdx :=
        Nat.min (length keypointFrames - 1) (releaseIdx + 2) in
      Returned
        {| preparation := JS.slice 0 (prepEndIdx + 1) keypointFrames;
           release := JS.slice prepEndIdx (releaseEndIdx + 1) keypointFrames;
           followThroughFrames := JS.slice_from releaseEndIdx keypointFrames |}
  end.

Section Trigonometry.
(** Two quantities the rationals cannot compute are taken as given, with
    no assumption on them: the angle in degrees at [point2] between
    [point1] and [point3] ([calculateJointAngle], which uses [Math.sqrt]
    and [Math.acos]), and [Math.atan2(a, b) * (180 / Math.PI)]. *)
Variable calculateJointAngle : PoseLandmark -> PoseLandmark -> PoseLandmark -> Q.
Variable atan2_degrees : Q -> Q -> Q.

Definition calculateElbowAlignment (shoulder elbow wrist : PoseLandmark) : Q :=
  let angle := calculateJointAngle shoulder elbow wrist in
  let optimalAngle := 90 in
  let deviation := JS.Math_abs (angle - optimalAngle) in
  let score := JS.Math_max 0 (100 - deviation * (333 # 100)) in
  JS.Math_round score.

Definition calculateWristAngle (elbow wrist : PoseLandmark)
    (frame : KeypointFrame) : Q :=
  let dx := x wrist - x elbow in
  let dy := y wrist - y elbow in
  let angleFromVertical := JS.Math_abs (atan2_degrees dx dy) in
  let deviation := JS.Math_abs (angleFromVertical - 0) in
  let score := JS.Math_max 0 (100 - deviation * 5) in
  JS.Math_round score.

Definition calculateShoulderSquare (frame : KeypointFrame) : Q :=
  match keypoints frame !! LEFT_SHOULDER,
        keypoints frame !! RIGHT_SHOULDER with
  | Some leftShoulder, Some rightShoulder =>
      let dx := x rightShoulder - x leftShoulder in
      let dy := y rightShoulder - y leftShoulder in
      let angle := JS.Math_abs (atan2_degrees dy dx) in
      let deviation := JS.Math_abs angle in
      let score := JS.Math_max 0 (100 - deviation * 5) in
      JS.Math_round score
  | _, _ => 50
  end.

Definition calculateFollowThroughQuality
    (followThroughFrames : list KeypointFrame) : Q :=
  if (length followThroughFrames =? 0)%nat then 0
  else
    let wristPositions :=
      omap (fun frame => keypoints frame !! RIGHT_WRIST)
           followThroughFrames in
    if (length wristPositions <? 2)%nat then 50
    else
      let n := inject_Z (Z.of_nat (length wristPositions)) in
      let avgY := JS.sum (map y wristPositions) / n in
      let variance :=
        JS.sum (map (fun w => (y w - avgY) * (y w - avgY)) wristPositions)
        / n in
      let durationScore :=
        JS.Math_min 100
          (inject_Z (Z.of_nat (length followThroughFrames)) / 5 * 100) in
      let consistencyScore := JS.Math_max 0 (100 - variance * 500) in
      let score := durationScore * (6 # 10) + consistencyScore * (4 # 10) in
      JS.Math_round score.

Definition calculateBodyBalance (frame : KeypointFrame) : Q :=
  match keypoints frame !! LEFT_HIP, keypoints frame !! RIGHT_HIP,
        keypoints frame !! LEFT_ANKLE, keypoints frame !! RIGHT_ANKLE with
  | Some leftHip, Some rightHip, Some leftAnkle, Some rightAnkle =>
      let hipDy := JS.Math_abs (y leftHip - y rightHip) in
      let hipScore := JS.Math_max 0 (100 - hipDy * 500) in
      let stanceWidth := JS.Math_abs (x leftAnkle - x rightAnkle) in
      let optimalWidth := 3 # 10 in
      let stanceDeviation := JS.Math_abs (stanceWidth - optimalWidth) in
      let stanceScore := JS.Math_max 0 (100 - stanceDeviation * 200) in
      let score := hipScore * (5 # 10) + stanceScore * (5 # 10) in
      JS.Math_round score
  | _, _, _, _ => 50
  end.

Definition calculateBiomechanicsFromPose (phases : ShootingPhases)
    : Completion string BiomechanicalAnalysis :=
  match release phases !! (length (release phases) / 2)%nat with
  | None => Threw "No release frame available"
  | Some releaseFrame =>
      match getShootingArmKeypoints releaseFrame false with
      | None => Threw "Could not detect shooting arm keypoints"
      | Some armKeypoints =>
          let wrist := wrist armKeypoints in
          let elbow := elbow armKeypoints in
          let shoulder := shoulder armKeypoints in
          Returned
            {| elbowAlignment := calculateElbowAlignment shoulder elbow wrist;
               wristAngle := calculateWristAngle elbow wrist releaseFrame;
               shoulderSquare := calculateShoulderSquare releaseFrame;
               followThrough :=
                 calculateFollowThroughQuality (followThroughFrames phases);
               releaseHeight := 1 - y wrist;
               bodyBalance := calculateBodyBalance releaseFrame |}
      end
  end.
End Trigonometry.

(** The weighted average inside [calculateFormScore]. *)
Definition totalScore (biomechanics : BiomechanicalAnalysis) : Q :=
  elbowAlignment biomechanics * (25 # 100) +
  wristAngle biomechanics * (20 # 100) +
  shoulderSquare biomechanics * (20 # 100) +
  followThrough biomechanics * (25 # 100) +
  bodyBalance biomechanics * (10 # 100).

Definition calculateFormScore (biomechanics : BiomechanicalAnalysis)
    : FormScore :=
  let totalScore := totalScore biomechanics in
  if JS.ge totalScore 90 then grade_A
  else if JS.ge totalScore 80 then grade_B
  else if JS.ge totalScore 70 then grade_C
  else if JS.ge totalScore 60 then grade_D
  else grade_F.

(** The issues pushed for each metric, before sorting. *)
Definition elbowIssues (biomechanics : BiomechanicalAnalysis)
    : list FormIssue :=
  if JS.lt (elbowAlignment biomechanics) 60 then
    [ {| type := elbow_flare; severity := major;
         description := "Your elbow is significantly out of alignment. Focus on keeping it under the ball.";
         recommendedDrills :=
           [ "Wall shooting drill - Practice form against a wall";
             "One-hand form shooting - Focus on elbow alignment";
             "Chair drill - Sit and practice shooting motion" ] |} ]
  else if JS.lt (elbowAlignment biomechanics) 75 then
    [ {| type := elbow_flare; severity := moderate;
         description := "Your elbow alignment needs improvement. Keep it more vertical.";
         recommendedDrills :=
           [ "One-hand form shooting";
             "Mirror practice - Watch your elbow position" ] |} ]
  else [].

Definition wristIssues (biomechanics : BiomechanicalAnalysis)
    : list FormIssue :=
  if JS.lt (wristAngle biomechanics) 65 then
    [ {| type := wrist_angle; severity := moderate;
         description := "Your wrist position at release needs work. Aim for a straighter wrist with good snap.";
         recommendedDrills :=
           [ "Wrist flick drill - Practice wrist snap motion";
             "Close-range shooting - Focus on wrist follow-through";
             "Lying down shooting - Isolate wrist motion" ] |} ]
  else if JS.lt (wristAngle biomechanics) 80 then
    [ {| type := wrist_angle; severity := minor;
         description := "Minor wrist angle adjustment needed for optimal release.";
         recommendedDrills := [ "Wrist flick drill" ] |} ]
  else [].

Definition shoulderIssues (biomechanics : BiomechanicalAnalysis)
    : list FormIssue :=
  if JS.lt (shoulderSquare biomechanics) 70 then
    [ {| type := stance; severity := moderate;
         description := "Your shoulders are not square to the basket. Align your body properly.";
         recommendedDrills :=
           [ "Stance and alignment drills";
             "Feet positioning practice";
             "Square-up drill before shooting" ] |} ]
  else [].

Definition followThroughIssues (biomechanics : BiomechanicalAnalysis)
    : list FormIssue :=
  if JS.lt (followThrough biomechanics) 60 then
    [ {| type := follow_through; severity := major;
         description := "Your follow-through is inconsistent or too short. Hold your form longer.";
         recommendedDrills :=
           [ "Freeze drill - Hold follow-through for 2 seconds";
             "Slow-motion shooting - Practice complete follow-through";
             "Goose-neck finish - Focus on wrist position" ] |} ]
  else if JS.lt (followThrough biomechanics) 75 then
    [ {| type := follow_through; severity := moderate;
         description := "Extend your follow-through for better consistency.";
         recommendedDrills :=
           [ "Freeze drill"; "Count to 2 after release" ] |} ]
  else [].

Definition detectFormIssuesFromPose (biomechanics : BiomechanicalAnalysis)
    (phases : ShootingPhases) : list FormIssue :=
  let issues :=
    (elbowIssues biomechanics ++ wristIssues biomechanics ++
     shoulderIssues biomechanics ++ followThroughIssues biomechanics)%list in
  JS.slice 0 3 (sortBySeverity issues).

(** [performLightweightMLAnalysis].  The pose model and the keypoints it
    detects come from collaborators: whether the model loaded, and what
    [processVideoForPose] resolved or rejected with, are given. *)
Section Pipeline.
Variable calculateJointAngle : PoseLandmark -> PoseLandmark -> PoseLandmark -> Q.
Variable atan2_degrees : Q -> Q -> Q.
Variable Model : Type.
Variable loadPoseModelWithFallback : option Model.
Variable processVideoForPose :
  string -> Model -> Completion string (list KeypointFrame).

(** The [try] block; a thrown [Error] is its message. *)
Definition lightweightAnalysisBody (videoPath : string)
    : Completion string FormAnalysisResult :=
  match loadPoseModelWithFallback with
  | None => Threw "Failed to load pose estimation model"
  | Some model =>
      let* keypointFrames := processVideoForPose videoPath model in
      if (length keypointFrames =? 0)%nat
      then Threw "No keypoints detected in video"
      else
        let* phases := detectShootingPhases keypointFrames in
        let* biomechanics :=
          calculateBiomechanicsFromPose calculateJointAngle atan2_degrees
            phases in
        let overallScore := calculateFormScore biomechanics in
        let detectedIssues := detectFormIssuesFromPose biomechanics phases in
        Returned
          {| overallScore := overallScore;
             detectedIssues := detectedIssues;
             biomechanicalMetrics :=
               {| Models.elbowAlignment := elbowAlignment biomechanics;
                  Models.wristAngle := wristAngle biomechanics;
                  Models.shoulderSquare := shoulderSquare biomechanics;
                  Models.followThrough := followThrough biomechanics |} |}
  end.

Definition performLightweightMLAnalysis (videoPath : string)
    : Completion string FormAnalysisResult :=
  match lightweightAnalysisBody videoPath with
  | Returned result => Returned result
  | Threw error =>
      Threw (String.append "Lightweight ML analysis failed: "
                           (template_of_error error))
  end.
End Pipeline.

End LightweightFormAnalyzer.

(* ================================================================== *)
(** ** analysis/BasicAnalysisEngine.ts *)

Module BasicAnalysisEngine.
Local Open Scope string_scope.
Local Open Scope Q_scope.

Record ShotTrajectory := {
  releaseAngle : Q;
  releaseHeight : Q;
  arcHeight : Q;
  releaseSpeed : Q;
  followThroughDuration : Q;
}.

Record BodyPositioning := {
  shoulderAlignment : Q;
  elbowAngle : Q;
  wristAngle : Q;
  stanceWidth : Q;
  kneeFlexion : Q;
}.

Record Timing := {
  totalDuration : Q;
  preparationPhase : Q;
  releasePhase : Q;
  followThroughPhase : Q;
}.

Record MotionAnalysisResult := {
  trajectory : ShotTrajectory;
  positioning : BodyPositioning;
  timing : Timing;
}.

(** The numeric score of [applyRuleBasedScoring] before it is graded. *)
Definition ruleBasedScore (motion : MotionAnalysisResult) : Q :=
  let score := 100 in
  let releaseAngleDiff :=
    JS.Math_abs (releaseAngle (trajectory motion) - 48) in
  let score :=
    if JS.gt releaseAngleDiff 10 then score - 20
    else if JS.gt releaseAngleDiff 5 then score - 10 else score in
  let elbowAngleDiff := JS.Math_abs (elbowAngle (positioning motion) - 90) in
  let score :=
    if JS.gt elbowAngleDiff 15 then score - 20
    else if JS.gt elbowAngleDiff 10 then score - 10 else score in
  let shoulderDiff := JS.Math_abs (shoulderAlignment (positioning motion)) in
  let score :=
    if JS.gt shoulderDiff 15 then score - 15
    else if JS.gt shoulderDiff 10 then score - 8 else score in
  let score :=
    if JS.lt (followThroughDuration (trajectory motion)) 200 then score - 15
    else if JS.lt (followThroughDuration (trajectory motion)) 250
    then score - 8 else score in
  let arcDiff := JS.Math_abs (arcHeight (trajectory motion) - (75 # 100)) in
  let score :=
    if JS.gt arcDiff (15 # 100) then score - 10
    else if JS.gt arcDiff (1 # 10) then score - 5 else score in
  score.

Definition applyRuleBasedScoring (motion : MotionAnalysisResult) : FormScore :=
  let score := ruleBasedScore motion in
  if JS.ge score 90 then grade_A
  else if JS.ge score 80 then grade_B
  else if JS.ge score 70 then grade_C
  else if JS.ge score 60 then grade_D
  else grade_F.

Definition detectFormIssues (motion : MotionAnalysisResult) : list FormIssue :=
  let elbowAngleDiff := JS.Math_abs (elbowAngle (positioning motion) - 90) in
  let wristDiff := JS.Math_abs (wristAngle (positioning motion)) in
  let stanceDiff :=
    JS.Math_abs (stanceWidth (positioning motion) - (5 # 10)) in
  ((if JS.gt elbowAngleDiff 15 then
      [ {| type := elbow_flare; severity := major;
           description := "Your elbow is flaring out too much. Keep it aligned under the ball.";
           recommendedDrills :=
             [ "Wall shooting drill - Practice form against a wall";
               "One-hand form shooting - Focus on elbow alignment" ] |} ]
    else if JS.gt elbowAngleDiff 10 then
      [ {| type := elbow_flare; severity := moderate;
           description := "Your elbow alignment could be improved. Try to keep it more vertical.";
           recommendedDrills := [ "One-hand form shooting" ] |} ]
    else []) ++
   (if JS.gt wristDiff 10 then
      [ {| type := wrist_angle; severity := moderate;
           description := "Your wrist angle at release needs adjustment. Aim for a straight wrist.";
           recommendedDrills :=
             [ "Wrist flick drill - Practice wrist snap motion";
               "Close-range shooting - Focus on wrist follow-through" ] |} ]
    else []) ++
   (if JS.gt stanceDiff (2 # 10) then
      [ {| type := stance; severity := minor;
           description := "Your stance width could be better. Feet should be shoulder-width apart.";
           recommendedDrills := [ "Balance and stance drills" ] |} ]
    else []) ++
   (if JS.lt (followThroughDuration (trajectory motion)) 200 then
      [ {| type := follow_through; severity := major;
           description := "Your follow-through is too short. Hold your form longer after release.";
           recommendedDrills :=
             [ "Freeze drill - Hold follow-through position for 2 seconds";
               "Slow-motion shooting - Practice complete follow-through" ] |} ]
    else if JS.lt (followThroughDuration (trajectory motion)) 250 then
      [ {| type := follow_through; severity := moderate;
           description := "Extend your follow-through slightly longer for better consistency.";
           recommendedDrills := [ "Freeze drill" ] |} ]
    else []))%list.

Definition calculateBiomechanicalMetrics (motion : MotionAnalysisResult)
    : BiomechanicalMetrics :=
  let elbowScore :=
    JS.Math_max 0
      (100 - JS.Math_abs (elbowAngle (positioning motion) - 90) * 5) in
  let wristScore :=
    JS.Math_max 0 (100 - JS.Math_abs (wristAngle (positioning motion)) * 6) in
  let shoulderScore :=
    JS.Math_max 0
      (100 - JS.Math_abs (shoulderAlignment (positioning motion)) * 4) in
  let followThroughDiff :=
    JS.Math_abs (followThroughDuration (trajectory motion) - 350) in
  let followThroughScore :=
    JS.Math_max 0 (100 - followThroughDiff * (3 # 10)) in
  {| Models.elbowAlignment := JS.Math_round elbowScore;
     Models.wristAngle := JS.Math_round wristScore;
     Models.shoulderSquare := JS.Math_round shoulderScore;
     Models.followThrough := JS.Math_round followThroughScore |}.

(** [generateFeedbackMessages] sorts the array it is given in place; the
    second component is that array after the call. *)
Definition generateFeedbackMessages (score : FormScore)
    (issues : list FormIssue) : list string * list FormIssue :=
  let overall :=
    match score with
    | grade_A => "Excellent form! Keep up the great work."
    | grade_B => "Good form with room for minor improvements."
    | grade_C => "Decent form, but focus on the issues below to improve."
    | grade_D => "Your form needs work. Focus on fundamentals."
    | grade_F =>
        "Significant form issues detected. Practice the recommended drills."
    end in
  let sorted := sortBySeverity issues in
  let topIssues := JS.slice 0 2 sorted in
  ((overall :: map description topIssues)%list, sorted).

Section Pipeline.
(** The motion data comes from the vision collaborator. *)
Variable analyzeVideoMotion : string -> Completion string MotionAnalysisResult.

Definition basicAnalysisBody (videoPath : string)
    : Completion string FormAnalysisResult :=
  let* motion := analyzeVideoMotion videoPath in
  let overallScore := applyRuleBasedScoring motion in
  let detectedIssues := detectFormIssues motion in
  let biomechanicalMetrics := calculateBiomechanicalMetrics motion in
  let '(feedbackMessages, detectedIssues) :=
    generateFeedbackMessages overallScore detectedIssues in
  Returned {| overallScore := overallScore;
              detectedIssues := detectedIssues;
              biomechanicalMetrics := biomechanicalMetrics |}.

Definition performBasicAnalysis (videoPath : string)
    : Completion string FormAnalysisResult :=
  match basicAnalysisBody videoPath with
  | Returned result => Returned result
  | Threw error =>
      Threw (String.append "Basic analysis failed: " (template_of_error error))
  end.
End Pipeline.

End BasicAnalysisEngine.

(* ================================================================== *)
(** ** ml/MLAnalysisIntegration.ts *)

Module MLAnalysisIntegration.

Section Strategies.
(** The two strategies with a real body, already applied to their
    collaborators. *)
Variable performLightweightMLAnalysis :
  string -> Completion string FormAnalysisResult.
Variable performBasicAnalysis : string -> Completion string FormAnalysisResult.

(** [performMLAnalysisWithFallback]: every tier but [basic] tries the pose
    strategy and, when it throws, the rule-based one. *)
Definition performMLAnalysisWithFallback (videoPath : string)
    (t : AnalysisTier) : Completion string FormAnalysisResult :=
  match t with
  | lightweight_ml | full_ml | cloud =>
      match performLightweightMLAnalysis videoPath with
      | Returned result => Returned result
      | Threw error => performBasicAnalysis videoPath
      end
  | basic => performBasicAnalysis videoPath
  end.
End Strategies.

End MLAnalysisIntegration.

(* ================================================================== *)
(** ** Vocabulary of the specification *)

Module Spec.
Local Open Scope Q_scope.

(** A sub-score on the 0-100 scale. *)
Definition in_range (q : Q) : Prop := 0 <= q <= 100.

Definition metrics_in_range (m : BiomechanicalMetrics) : Prop :=
  in_range (elbowAlignment m) /\ in_range (wristAngle m) /\
  in_range (shoulderSquare m) /\ in_range (followThrough m).

(** The grade breakpoints: 90, 80, 70, 60. *)
Definition grade_of (total : Q) (g : FormScore) : Prop :=
  match g with
  | grade_A => 90 <= total
  | grade_B => 80 <= total < 90
  | grade_C => 70 <= total < 80
  | grade_D => 60 <= total < 70
  | grade_F => total < 60
  end.

(** Mean and (population) variance of a non-empty sample. *)
Definition mean (l : list Q) : Q :=
  JS.sum l / inject_Z (Z.of_nat (length l)).

Definition variance (l : list Q) : Q :=
  mean (map (fun v => (v - mean l) * (v - mean l)) l).

(** The two ingredients of the follow-through score. *)
Definition durationScore (frameCount : nat) : Q :=
  Qmin 100 (inject_Z (Z.of_nat frameCount) / 5 * 100).

Definition consistencyScore (wristYs : list Q) : Q :=
  Qmax 0 (100 - 500 * variance wristYs).

(** Non-decreasing severity rank, position by position. *)
Definition severity_ordered (issues : list FormIssue) : Prop :=
  forall (i j : nat) (a b : FormIssue),
    (i < j)%nat -> issues !! i = Some a -> issues !! j = Some b ->
    (severityOrder (severity a) <= severityOrder (severity b))%nat.

End Spec.

(* ================================================================== *)
(** ** Sample data *)

Module Samples.
Import PoseEstimationEngine.
Local Open Scope Q_scope.

Definition landmark (px py : Q) : PoseLandmark :=
  {| x := px; y := py; z := 0; visibility := 1 |}.

(** A frame with the given wrist height and an upright, square posture. *)
Definition upright_frame (wristY : Q) : KeypointFrame :=
  {| keypoints :=
       <[RIGHT_WRIST := landmark (1 # 2) wristY]>
       (<[RIGHT_ELBOW := landmark (1 # 2) (4 # 10)]>
       (<[RIGHT_SHOULDER := landmark (6 # 10) (4 # 10)]>
       (<[LEFT_SHOULDER := landmark (4 # 10) (4 # 10)]>
       (<[LEFT_HIP := landmark (45 # 100) (6 # 10)]>
       (<[RIGHT_HIP := landmark (55 # 100) (6 # 10)]>
       (<[LEFT_ANKLE := landmark (35 # 100) (9 # 10)]>
       (<[RIGHT_ANKLE := landmark (65 # 100) (9 # 10)]> ∅)))))));
     timestamp := 0;
     confidence := 9 # 10 |}.

(** A frame in which no joint was detected. *)
Definition blank_frame : KeypointFrame :=
  {| keypoints := ∅; timestamp := 0; confidence := 0 |}.

(** A shot whose wrist peaks in the third of eight frames. *)
Definition shot_frames : list KeypointFrame :=
  map upright_frame
    [5 # 10; 3 # 10; 2 # 10; 2 # 10; 2 # 10; 2 # 10; 21 # 100; 2 # 10].

(** Stand-ins for the two trigonometric collaborators: a right angle at
    the elbow, and a forearm 4 degrees off the vertical. *)
Definition right_angle (_ _ _ : PoseLandmark) : Q := 90.
Definition four_degrees (_ _ : Q) : Q := 4.

Definition sample_pose_strategy (videoPath : string)
    : Completion string FormAnalysisResult :=
  LightweightFormAnalyzer.performLightweightMLAnalysis
    right_angle four_degrees unit (Some tt)
    (fun _ _ => Returned shot_frames) videoPath.

Definition sample_motion : BasicAnalysisEngine.MotionAnalysisResult :=
  {| BasicAnalysisEngine.trajectory :=
       {| BasicAnalysisEngine.releaseAngle := 47;
          BasicAnalysisEngine.releaseHeight := 7 # 10;
          BasicAnalysisEngine.arcHeight := 3 # 4;
          BasicAnalysisEngine.releaseSpeed := 65 # 100;
          BasicAnalysisEngine.followThroughDuration := 380 |};
     BasicAnalysisEngine.positioning :=
       {| BasicAnalysisEngine.shoulderAlignment := 3;
          BasicAnalysisEngine.elbowAngle := 78;
          BasicAnalysisEngine.wristAngle := -2;
          BasicAnalysisEngine.stanceWidth := 5 # 10;
          BasicAnalysisEngine.kneeFlexion := 120 |};
     BasicAnalysisEngine.timing :=
       {| BasicAnalysisEngine.totalDuration := 1800;
          BasicAnalysisEngine.preparationPhase := 720;
          BasicAnalysisEngine.releasePhase := 360;
          BasicAnalysisEngine.followThroughPhase := 720 |} |}.

Definition sample_basic_strategy (videoPath : string)
    : Completion string FormAnalysisResult :=
  BasicAnalysisEngine.performBasicAnalysis
    (fun _ => Returned sample_motion) videoPath.

(** The biomechanics of the grading scenario. *)
Definition excellent_biomechanics : LightweightFormAnalyzer.BiomechanicalAnalysis :=
  {| LightweightFormAnalyzer.elbowAlignment := 95;
     LightweightFormAnalyzer.wristAngle := 92;
     LightweightFormAnalyzer.shoulderSquare := 94;
     LightweightFormAnalyzer.followThrough := 90;
     LightweightFormAnalyzer.releaseHeight := 8 # 10;
     LightweightFormAnalyzer.bodyBalance := 88 |}.

(** Biomechanics that trip all four checks. *)
Definition poor_biomechanics : LightweightFormAnalyzer.BiomechanicalAnalysis :=
  {| LightweightFormAnalyzer.elbowAlignment := 70;
     LightweightFormAnalyzer.wristAngle := 72;
     LightweightFormAnalyzer.shoulderSquare := 60;
     LightweightFormAnalyzer.followThrough := 40;
     LightweightFormAnalyzer.releaseHeight := 5 # 10;
     LightweightFormAnalyzer.bodyBalance := 50 |}.

Definition no_phases : LightweightFormAnalyzer.ShootingPhases :=
  {| LightweightFormAnalyzer.preparation := [];
     LightweightFormAnalyzer.release := [];
     LightweightFormAnalyzer.followThroughFrames := [] |}.

End Samples.

(* ================================================================== *)
(** * Properties *)

Section RouterProperties.
Import Router.

Lemma ConnectionType_eqb_eq a b : ConnectionType_eqb a b = true <-> a = b.
  Proof. destruct a, b; simpl; split; congruence. Qed.

Lemma DeviceTier_eqb_eq a b : DeviceTier_eqb a b = true <-> a = b.
  Proof. destruct a, b; simpl; split; congruence. Qed.

Lemma AnalysisTier_eqb_eq a b : AnalysisTier_eqb a b = true <-> a = b.
  Proof. destruct a, b; simpl; split; congruence. Qed.

Lemma cloud_rule_bool connectivity consent :
    isConnected connectivity && cloudProcessing consent
      && ConnectionType_eqb (connectionType connectivity) wifi
      && negb (isMetered connectivity) = true
    <-> cloud_rule connectivity consent.
  Proof.
    unfold cloud_rule.
    rewrite !andb_true_iff, negb_true_iff, ConnectionType_eqb_eq. tauto.
  Qed.

Lemma full_ml_rule_bool capabilities :
    DeviceTier_eqb (Models.tier capabilities) high
      && mlFrameworkSupported capabilities = true
    <-> full_ml_rule capabilities.
  Proof.
    unfold full_ml_rule. rewrite andb_true_iff, DeviceTier_eqb_eq. tauto.
  Qed.

Lemma lightweight_ml_rule_bool capabilities :
    DeviceTier_eqb (Models.tier capabilities) mid
      && mlFrameworkSupported capabilities = true
    <-> lightweight_ml_rule capabilities.
  Proof.
    unfold lightweight_ml_rule. rewrite andb_true_iff, DeviceTier_eqb_eq. tauto.
  Qed.

Ltac clear_rule_bools :=
  repeat match goal with
         | H : _ = true <-> _ |- _ => clear H
         | H : _ = false |- _ => clear H
         end.

(** Closes each clause of the precedence table once the rule that fired
    is known. *)
Ltac settle_rules :=
  clear_rule_bools;
  repeat match goal with
         | |- _ /\ _ => split
         | |- _ <-> _ => split
         | |- _ \/ _ -> _ => intros [? | ?]
         | |- _ -> _ => intro
         end;
  try discriminate; try tauto; try assumption.

(** C1. [selectProcessingTier] is a function of its three arguments alone
    and returns the first rule that matches: [cloud] exactly when the
    device is connected, cloud processing is consented to, the connection
    is wifi and it is not metered; otherwise [full_ml] exactly for a
    high-tier device with ML framework support; otherwise [lightweight_ml]
    exactly for a mid-tier device with ML framework support; otherwise
    [basic].  So [cloud] needs connectivity and consent, and the two ML
    tiers need [mlFrameworkSupported]. *)
Theorem selectProcessingTier_first_match :
  forall capabilities connectivity consent,
    let chosen := selectProcessingTier capabilities connectivity consent in
    (chosen = cloud <-> cloud_rule connectivity consent) /\
    (chosen = full_ml <->
       ~ cloud_rule connectivity consent /\ full_ml_rule capabilities) /\
    (chosen = lightweight_ml <->
       ~ cloud_rule connectivity consent /\ ~ full_ml_rule capabilities /\
       lightweight_ml_rule capabilities) /\
    (chosen = basic <->
       ~ cloud_rule connectivity consent /\ ~ full_ml_rule capabilities /\
       ~ lightweight_ml_rule capabilities) /\
    (chosen = cloud ->
       isConnected connectivity = true /\ cloudProcessing consent = true) /\
    (chosen = full_ml \/ chosen = lightweight_ml ->
       mlFrameworkSupported capabilities = true).
Proof.
  intros capabilities connectivity consent chosen.
  subst chosen. unfold selectProcessingTier.
  pose proof (cloud_rule_bool connectivity consent) as Hc.
  pose proof (full_ml_rule_bool capabilities) as Hf.
  pose proof (lightweight_ml_rule_bool capabilities) as Hl.
  destruct (isConnected connectivity && cloudProcessing consent
            && ConnectionType_eqb (connectionType connectivity) wifi
            && negb (isMetered connectivity)) eqn:Ec.
  - assert (cloud_rule connectivity consent) as R by (apply Hc; reflexivity).
    pose proof R as (? & ? & _).
    settle_rules.
  - assert (~ cloud_rule connectivity consent) as R
      by (intros R; apply Hc in R; discriminate).
    destruct (DeviceTier_eqb (Models.tier capabilities) high
              && mlFrameworkSupported capabilities) eqn:Ef.
    + assert (full_ml_rule capabilities) as R' by (apply Hf; reflexivity).
      pose proof R' as (_ & ?).
      settle_rules.
    + assert (~ full_ml_rule capabilities) as R'
        by (intros R'; apply Hf in R'; discriminate).
      destruct (DeviceTier_eqb (Models.tier capabilities) mid
                && mlFrameworkSupported capabilities) eqn:El.
      * assert (lightweight_ml_rule capabilities) as R''
          by (apply Hl; reflexivity).
        pose proof R'' as (_ & ?).
        settle_rules.
      * assert (~ lightweight_ml_rule capabilities) as R''
          by (intros R''; apply Hl in R''; discriminate).
        settle_rules.
Qed.

(** C3. [getFallbackTier] is the chain cloud -> full_ml -> lightweight_ml
    -> basic -> none; from every tier, applying it repeatedly reaches
    [basic] after at most three steps, where it stops. *)
Theorem getFallbackTier_chain :
  getFallbackTier cloud = Some full_ml /\
  getFallbackTier full_ml = Some lightweight_ml /\
  getFallbackTier lightweight_ml = Some basic /\
  getFallbackTier basic = None /\
  forall t : AnalysisTier,
    exists n : nat,
      (n <= 3)%nat /\ fallback_iter n t = Some basic /\
      fallback_iter (S n) t = None.
Proof.
  do 4 (split; [reflexivity |]).
  intros [ | | | ].
  - exists 0%nat. simpl. split; [lia | split; reflexivity].
  - exists 1%nat. simpl. split; [lia | split; reflexivity].
  - exists 2%nat. simpl. split; [lia | split; reflexivity].
  - exists 3%nat. simpl. split; [lia | split; reflexivity].
Qed.

End RouterProperties.

Section RouteProperties.
Import Router.
Context {T E W : Type}.
Variable Date_now : W -> Z * W.
Variable analysisFunction : string -> AnalysisTier -> W -> (E + T) * W.

Local Abbreviation route := (routeVideoAnalysis Date_now analysisFunction).
Local Abbreviation all_fail := (failures analysisFunction).

(** The chain has one, two or three tiers and ends in [basic]. *)
Lemma attemptChain_shape (first : AnalysisTier) :
  attemptChain first = [basic] \/
  attemptChain first = [lightweight_ml; basic] \/
  exists fallbackTier,
    getFallbackTier first = Some fallbackTier /\ fallbackTier <> basic /\
    attemptChain first = [first; fallbackTier; basic].
Proof.
  destruct first; simpl; auto; right; right; eexists;
    (split; [reflexivity | split; [discriminate | reflexivity]]).
Qed.

Lemma attemptChain_length (first : AnalysisTier) :
  (1 <= length (attemptChain first) <= 3)%nat.
Proof. destruct first; simpl; lia. Qed.

(** One rejection value is collected per tier. *)
Lemma failures_length videoPath tiers :
  forall w errors w',
    all_fail videoPath tiers w = Some (errors, w') ->
    length errors = length tiers.
Proof.
  induction tiers as [| t rest IH]; simpl; intros w errors w'.
  - intros [= <- <-]. reflexivity.
  - destruct (analysisFunction videoPath t w) as [[e | d] w1];
      [| discriminate].
    destruct (all_fail videoPath rest w1) as [[es w2] |] eqn:Hrest;
      [| discriminate].
    intros [= <- <-]. simpl. f_equal. eapply IH, Hrest.
Qed.

(** What the router does when no attempt succeeds, case by chain length. *)
Lemma routeVideoAnalysis_all_fail videoPath config w0 errors w' :
  all_fail videoPath (attemptChain (fst (initialTier config)))
           (snd (Date_now w0)) = Some (errors, w') ->
  exists error,
    hd_error errors = Some error /\
    route videoPath config w0 =
      (Threw (match errors with
              | [_; _; lastError] => StrategyError lastError
              | _ => VideoAnalysisFailed error
              end), w').
Proof.
  unfold routeVideoAnalysis.
  destruct (Date_now w0) as [startTime w1]; simpl.
  destruct (initialTier config) as [currentTier fallbackUsed0]; simpl.
  unfold attemptChain.
  destruct (analysisFunction videoPath currentTier w1) as [[error | d] w2]
    eqn:A1; simpl; rewrite ?A1; [| discriminate].
  destruct (getFallbackTier currentTier) as [fallbackTier |]; simpl.
  - destruct (analysisFunction videoPath fallbackTier w2)
      as [[fallbackError | d] w3] eqn:A2; simpl; [| discriminate].
    destruct (negb (AnalysisTier_eqb fallbackTier basic)); simpl.
    + destruct (analysisFunction videoPath basic w3)
        as [[lastError | d] w4] eqn:A3; simpl; [| discriminate].
      intros [= <- <-]. exists error. split; reflexivity.
    + intros [= <- <-]. exists error. split; reflexivity.
  - intros [= <- <-]. exists error. split; reflexivity.
Qed.

(** C2, as the code has it.  When every attempted tier fails,
    [routeVideoAnalysis] throws and returns no result.  If the last-resort
    [basic] attempt was made (three attempts), the value thrown is that
    attempt's failure, the most recent one; otherwise (one attempt, or two
    with [basic] as the fallback) it is the "Video analysis failed" error
    made from the failure of the first attempt. *)
Theorem routeVideoAnalysis_exhausted_throws :
  forall videoPath config w0 errors w',
    all_fail videoPath (attemptChain (fst (initialTier config)))
             (snd (Date_now w0)) = Some (errors, w') ->
    exists thrown first,
      route videoPath config w0 = (Threw thrown, w') /\
      hd_error errors = Some first /\
      (length errors = 3%nat ->
         thrown = StrategyError (List.last errors first)) /\
      (length errors <> 3%nat -> thrown = VideoAnalysisFailed first) /\
      (length errors <> 2%nat ->
         failure_of thrown = List.last errors first).
Proof.
  intros videoPath config w0 errors w' Hfail.
  destruct (routeVideoAnalysis_all_fail _ _ _ _ _ Hfail) as (first & Hhd & Hr).
  eexists; exists first. split; [exact Hr |]. split; [exact Hhd |].
  pose proof (failures_length _ _ _ _ _ Hfail) as Hlen.
  pose proof (attemptChain_length (fst (initialTier config))) as Hchain.
  clear Hfail Hr.
  destruct errors as [| e1 [| e2 [| e3 [| e4 rest]]]]; simpl in *;
    try discriminate; try lia; injection Hhd as ->;
    repeat split; intros; try reflexivity; try lia; try congruence.
Qed.

(** C4. Starting from a legal [lightweight_ml] configuration with a
    strategy that fails for [lightweight_ml] and succeeds for [basic], the
    router returns the basic call's data with [tier = basic] and
    [fallbackUsed = true]; and whatever the router returns, its [data] is
    what a strategy call on the returned [tier] produced. *)
Theorem routeVideoAnalysis_returns_producing_tier :
  forall videoPath config w0,
    (forall error w2 d w3,
       selectedTier config = lightweight_ml ->
       validateProcessingTier lightweight_ml config = true ->
       analysisFunction videoPath lightweight_ml (snd (Date_now w0))
         = (inl error, w2) ->
       analysisFunction videoPath basic w2 = (inr d, w3) ->
       exists r,
         route videoPath config w0 = (Returned r, snd (Date_now w3)) /\
         data r = d /\ tier r = basic /\ fallbackUsed r = true /\
         processingTime r = (fst (Date_now w3) - fst (Date_now w0))%Z) /\
    (forall r w',
       route videoPath config w0 = (Returned r, w') ->
       exists w_before w_after,
         analysisFunction videoPath (tier r) w_before
           = (inr (data r), w_after)).
Proof.
  intros videoPath config w0. split.
  - intros error w2 d w3 Hsel Hvalid A1 A2.
    unfold routeVideoAnalysis, initialTier.
    rewrite Hsel, Hvalid.
    destruct (Date_now w0) as [startTime w1]; cbn [fst snd negb] in *.
    rewrite A1. cbn [getFallbackTier]. rewrite A2.
    cbn [AnalysisTier_eqb negb].
    destruct (Date_now w3) as [now w4]; cbn [fst snd].
    eexists; split; [reflexivity |]. cbn. repeat split.
  - intros r w'. unfold routeVideoAnalysis.
    destruct (Date_now w0) as [startTime w1].
    destruct (initialTier config) as [currentTier fallbackUsed0].
    destruct (analysisFunction videoPath currentTier w1)
      as [[error | d] w2] eqn:A1.
    + destruct (getFallbackTier currentTier) as [fallbackTier |];
        [| discriminate].
      destruct (analysisFunction videoPath fallbackTier w2)
        as [[fallbackError | d] w3] eqn:A2.
      * destruct (negb (AnalysisTier_eqb fallbackTier basic));
          [| discriminate].
        destruct (analysisFunction videoPath basic w3)
          as [[lastError | d] w4] eqn:A3; [discriminate |].
        destruct (Date_now w4). intros [= <- <-]. simpl. eauto.
      * destruct (Date_now w3). intros [= <- <-]. simpl. eauto.
    + destruct (Date_now w2). intros [= <- <-]. simpl. eauto.
Qed.

End RouteProperties.

Section RouteScenarios.
Import Router.
Local Open Scope string_scope.
Local Open Scope Z_scope.

(** A run with three failing attempts: the last-resort failure escapes. *)
Lemma routeVideoAnalysis_exhausted_throws_witness :
  exists thrown first,
    routeVideoAnalysis stub_now failing_strategy "shot.mp4"
      (stub_config cloud high) 0 = (Threw thrown, 480) /\
    hd_error ["upload refused"; "model too large"; "no motion detected"]
      = Some first /\
    (length ["upload refused"; "model too large"; "no motion detected"]
       = 3%nat ->
     thrown = StrategyError
                (List.last ["upload refused"; "model too large";
                            "no motion detected"] first)) /\
    (length ["upload refused"; "model too large"; "no motion detected"]
       <> 3%nat -> thrown = VideoAnalysisFailed first) /\
    (length ["upload refused"; "model too large"; "no motion detected"]
       <> 2%nat ->
     failure_of thrown =
       List.last ["upload refused"; "model too large"; "no motion detected"]
                 first).
Proof.
  apply (routeVideoAnalysis_exhausted_throws stub_now failing_strategy
           "shot.mp4" (stub_config cloud high) 0).
  reflexivity.
Defined.

(** C2 as stated fails: from [lightweight_ml] the attempts are
    [lightweight_ml] then [basic]; both fail, the most recent failure is
    the basic one, and the error thrown is made from the first. *)
Lemma routeVideoAnalysis_latest_failure_dropped :
  failures failing_strategy "shot.mp4"
    (attemptChain (fst (initialTier (stub_config lightweight_ml mid))))
    (snd (stub_now 0))
    = Some (["pose model unavailable"; "no motion detected"], 160) /\
  routeVideoAnalysis stub_now failing_strategy "shot.mp4"
    (stub_config lightweight_ml mid) 0
    = (Threw (VideoAnalysisFailed "pose model unavailable"), 160) /\
  failure_of (E := string) (VideoAnalysisFailed "pose model unavailable")
    <> "no motion detected".
Proof.
  split; [reflexivity |]. split; [reflexivity |]. discriminate.
Qed.

(** The end-to-end scenario on the test double. *)
Lemma routeVideoAnalysis_returns_producing_tier_witness :
  (exists r,
     routeVideoAnalysis stub_now stub_strategy "shot.mp4"
       (stub_config lightweight_ml mid) 0 = (Returned r, 160) /\
     data r = "rule-based result" /\ tier r = basic /\
     fallbackUsed r = true /\ processingTime r = 160) /\
  (exists w_before w_after,
     stub_strategy "shot.mp4" basic w_before
       = (inr "rule-based result", w_after)).
Proof.
  pose proof (routeVideoAnalysis_returns_producing_tier stub_now
                stub_strategy "shot.mp4" (stub_config lightweight_ml mid) 0)
    as [scenario producing].
  split.
  - apply (scenario "pose model unavailable" 40 "rule-based result" 160);
      reflexivity.
  - apply (producing
             {| data := "rule-based result"; tier := basic;
                processingTime := 160; fallbackUsed := true |} 160).
    reflexivity.
Defined.

End RouteScenarios.

